(** * match_wrapper.match: flag formatting and command assembly

    A shallow embedding of [src/match_wrapper/match.py] (Python 2): the
    [FlagFormatter] class and the four wrapper functions [calcsfh],
    [hybridMC], [zcmerge] and [zcombine], together with the properties of
    the specification that concern them. *)

From Stdlib Require Import ZArith String Ascii List Bool Lia SpecFloat.
From stdpp Require Import base option list strings gmap fin_maps pretty.

Local Open Scope string_scope.
Local Open Scope list_scope.
Local Open Scope Z_scope.

(** ** Python values *)

(** The values the wrappers receive: [None], booleans, integers, floats
    (IEEE binary64, as [spec_float]), byte strings, lists and tuples. *)
#[warnings="-register-all"]
Inductive pyval : Type :=
| PNone
| PBool (b : bool)
| PInt (z : Z)
| PFloat (x : spec_float)
| PStr (s : string)
| PList (l : list pyval)
| PTuple (l : list pyval).

(** The exception classes that matter to the control flow of the module. *)
Inductive exn : Type :=
| TypeError
| ValueError
| KeyError
| IndexError
| AttributeError
| OverflowError
| Unmodelled.

(** [KeyError] and [IndexError] are the subclasses of [LookupError]. *)
Definition is_LookupError (e : exn) : bool :=
  match e with
  | KeyError | IndexError => true
  | _ => false
  end.

(** A computation either returns or raises. *)
Inductive result (A : Type) : Type :=
| Ok (a : A)
| Raise (e : exn).
Arguments Ok {A} a.
Arguments Raise {A} e.

Definition bind {A B} (m : result A) (k : A -> result B) : result B :=
  match m with
  | Ok a => k a
  | Raise e => Raise e
  end.

Notation "'do' x <- m ; k" := (bind m (fun x => k))
  (at level 10, x name, m at level 100, k at level 200).

(** A list comprehension whose body may raise: elements are evaluated left
    to right and the first exception leaves the comprehension. *)
Fixpoint traverse {A B} (f : A -> result B) (l : list A) : result (list B) :=
  match l with
  | [] => Ok []
  | x :: l' => do y <- f x; do ys <- traverse f l'; Ok (y :: ys)
  end.

(** [val is True]. *)
Definition is_True (v : pyval) : bool :=
  match v with
  | PBool true => true
  | _ => false
  end.

(** [val is 0]: identity with the interned integer zero. Neither [0.0] nor
    [False] is that object. *)
Definition is_int_zero (v : pyval) : bool :=
  match v with
  | PInt 0 => true
  | _ => false
  end.

(** Truth value of an object, as an [if] or [elif] tests it. *)
Definition truthy (v : pyval) : bool :=
  match v with
  | PNone => false
  | PBool b => b
  | PInt z => negb (z =? 0)
  | PFloat (S754_zero _) => false
  | PFloat _ => true
  | PStr "" => false
  | PStr _ => true
  | PList [] | PTuple [] => false
  | PList _ | PTuple _ => true
  end.

(** [isinstance(val, basestring)]. *)
Definition is_basestring (v : pyval) : bool :=
  match v with
  | PStr _ => true
  | _ => false
  end.

(** Iterating over an object: a string yields its one-character strings, a
    list or a tuple its items; anything else is not iterable. *)
Definition char_strings (s : string) : list pyval :=
  map (fun c => PStr (String c "")) (list_ascii_of_string s).

Definition py_iter (v : pyval) : option (list pyval) :=
  match v with
  | PStr s => Some (char_strings s)
  | PList l | PTuple l => Some l
  | _ => None
  end.

(** Lists are not hashable; a tuple is when all its items are. *)
Fixpoint hashable (v : pyval) : bool :=
  match v with
  | PList _ => false
  | PTuple l => forallb hashable l
  | _ => true
  end.

(** [delim.join(strs)]. *)
Definition join (delim : string) (strs : list string) : string :=
  String.concat delim strs.

(** ** FlagFormatter *)

Section Match.

(** [str_format p v] is the built-in [p.format(v)], a format string
    applied to one positional argument. *)
Variable str_format : string -> pyval -> result string.

(** [f.format(v)] for an arbitrary object [f]: only strings have the
    method. *)
Definition call_format (f v : pyval) : result string :=
  match f with
  | PStr p => str_format p v
  | _ => Raise AttributeError
  end.

(** ['{:s}'.format(v)]: a string is copied unchanged. *)
Definition format_s (v : pyval) : result string :=
  match v with
  | PStr s => Ok s
  | _ => str_format "{:s}" v
  end.

(** The default format strings of [__init__]. *)
Definition default_fmt_dict : gmap string pyval :=
  list_to_map
    [ ("dAv", PStr "{:.2f}"); ("diskAv", PStr "{:.2f}");
      ("dAvy", PStr "{:.2f}"); ("zerobin", PStr "{:d}");
      ("incmult", PStr "{:.2f}"); ("incmultsig", PStr "{:.2f}");
      ("errmult", PStr "{:.2f}"); ("errmultsig", PStr "{:.2f}");
      ("logterr", PStr "{:.2f}"); ("logterrsig", PStr "{:.2f}");
      ("mbolerr", PStr "{:.2f}"); ("mbolerrsig", PStr "{:.2f}");
      ("mcseed", PStr "{:.2f}"); ("alpha", PStr "{:.2f}");
      ("dt", PStr "{:.2f}"); ("nburn", PStr "{:d}");
      ("nmc", PStr "{:d}"); ("nt", PStr "{:d}");
      ("nsfr", PStr "{:d}"); ("pscape", PStr "{:.2f}");
      ("tint", PStr "{:.2f}") ].

(** One turn of the loop over [kwargs.items()]. *)
Definition override (key : string) (val : pyval)
    (fmt_dict : gmap string pyval) : gmap string pyval :=
  match fmt_dict !! key with
  | Some _ => <[key := val]> fmt_dict
  | None => fmt_dict
  end.

(** The constructor, applied to the keyword arguments [kwargs]: the
    resulting [fmt_dict]. *)
Definition FlagFormatter_init (kwargs : gmap string pyval)
    : gmap string pyval :=
  map_fold override default_fmt_dict kwargs.

(** [self.fmt_dict[key]]. *)
Definition fmt_dict_getitem (fmt_dict : gmap string pyval) (key : pyval)
    : result pyval :=
  match key with
  | PStr k =>
      match fmt_dict !! k with
      | Some fmt => Ok fmt
      | None => Raise KeyError
      end
  | _ => if hashable key then Raise KeyError else Raise TypeError
  end.

(** [[f.format(v) for v, f in zip(val, fmt)]]. *)
Definition format_zip (fmt val : pyval) : result (list string) :=
  match py_iter val, py_iter fmt with
  | Some vs, Some fs =>
      traverse (fun vf => call_format (snd vf) (fst vf)) (zip vs fs)
  | _, _ => Raise TypeError
  end.

(** [[fmt.format(v) for v in val]]. *)
Definition format_each (fmt val : pyval) : result (list string) :=
  match py_iter val with
  | Some vs => traverse (fun v => call_format fmt v) vs
  | None => Raise TypeError
  end.

(** The body of the [elif] branch up to [valstr_list]. *)
Definition valstr_list (fmt val : pyval) : result (list string) :=
  if is_basestring val then
    do s <- call_format fmt val; Ok [s]
  else
    match format_zip fmt val with
    | Ok l => Ok l
    | Raise TypeError | Raise ValueError =>
        match format_each fmt val with
        | Ok l => Ok l
        | Raise TypeError => do s <- call_format fmt val; Ok [s]
        | Raise e => Raise e
        end
    | Raise e => Raise e
    end.

(** [FlagFormatter.__call__(key, val, delim)] on an instance whose
    [fmt_dict] is given. *)
Definition FlagFormatter_call (fmt_dict : gmap string pyval)
    (key val : pyval) (delim : string) : result (option string) :=
  if is_True val then
    do k <- format_s key; Ok (Some ("-" +:+ k))
  else if truthy val || is_int_zero val then
    do fmt <- fmt_dict_getitem fmt_dict key;
    do l <- valstr_list fmt val;
    do k <- format_s key;
    Ok (Some ("-" +:+ k +:+ "=" +:+ join delim l))
  else Ok None.

(** ** The wrapper functions *)

(** What a wrapper does with the assembled command: with [norun] it
    returns the string; otherwise it passes the string to
    [subprocess.call(cmd, shell=True)] and returns [None]. *)
Inductive outcome : Type :=
| Returned (cmd : string)
| Executed (cmd : string).

(** A formatter in the sense of the wrappers' [formatter] keyword: called
    with a flag and its value, it returns a string, [None], or raises. *)
Definition formatter_t : Type := pyval -> pyval -> result (option string).

(** [FlagFormatter()] called with the default delimiter. *)
Definition default_formatter : formatter_t :=
  fun key val => FlagFormatter_call (FlagFormatter_init ∅) key val ",".

(** [kwargs.get(key)] for a keyword name. *)
Definition kwargs_get (kwargs : gmap string pyval) (key : string) : pyval :=
  default PNone (kwargs !! key).

(** [kwargs[flag] = True]. The keywords of a call are strings, so an
    entry stored under another hashable object is read back only by the
    flag that stored it (see [kwargs_get_flag]). *)
Definition kwargs_set_True (kwargs : gmap string pyval) (flag : pyval)
    : result (gmap string pyval) :=
  match flag with
  | PStr s => Ok (<[s := PBool true]> kwargs)
  | _ => if hashable flag then Ok kwargs else Raise TypeError
  end.

(** [kwargs.get(flag)] for a member of [flag_list]: a flag that is not a
    string entered the list together with [kwargs[flag] = True]. *)
Definition kwargs_get_flag (kwargs : gmap string pyval) (flag : pyval)
    : pyval :=
  match flag with
  | PStr s => kwargs_get kwargs s
  | _ => PBool true
  end.

(** The steps "Mode flag" and "Transformation selection": a selection
    keyword that is set becomes a flag of its own, with value [True]. *)
Definition select (name : string)
    (st : gmap string pyval * list pyval)
    : result (gmap string pyval * list pyval) :=
  let flag := kwargs_get (fst st) name in
  if truthy flag then
    do kwargs' <- kwargs_set_True (fst st) flag;
    Ok (kwargs', snd st ++ [flag])
  else Ok st.

(** [flag in names] for a list of string literals: only a string is
    equal to one of them. *)
Definition py_in (flag : pyval) (names : list string) : bool :=
  match flag with
  | PStr s => bool_decide (s ∈ names)
  | _ => false
  end.

(** The step "Model selection": as [select], and [alpha] joins the list
    when the selection is ['DART']. *)
Definition select_model (st : gmap string pyval * list pyval)
    : result (gmap string pyval * list pyval) :=
  let modelflag := kwargs_get (fst st) "model" in
  if truthy modelflag then
    do kwargs' <- kwargs_set_True (fst st) modelflag;
    let flag_list := snd st ++ [modelflag] in
    if py_in modelflag ["DART"] then Ok (kwargs', flag_list ++ [PStr "alpha"])
    else Ok (kwargs', flag_list)
  else Ok st.

Definition calcsfh_mode_flags : list pyval :=
  map PStr ["ddist"; "full"; "verb"; "allstars"; "mcdata"; "allmcdata"].

Definition calcsfh_model_flags : list pyval :=
  map PStr ["dAv"; "diskAv"; "dAvy"; "appDmod"; "zerobin"; "incmult";
            "incmultsig"; "errmult"; "errmultsig"; "logterr";
            "logterrsig"; "mbolerr"; "mbolerrsig"; "mcseed"].

(** [kwargs] and [flag_list] of [calcsfh] when the flag strings are
    about to be made. *)
Definition calcsfh_flag_list (kwargs : gmap string pyval)
    : result (gmap string pyval * list pyval) :=
  do st <- select "mode" (kwargs, []);
  let st := (fst st, snd st ++ calcsfh_mode_flags ++ calcsfh_model_flags) in
  do st <- select_model st;
  select "transformation" st.

(** [kwargs.get('formatter', FlagFormatter())]. A callable passed as
    [formatter=] is the argument [formatter]; the map [kwargs] holds
    data, and calling a datum raises [TypeError]. *)
Definition get_formatter (formatter : option formatter_t)
    (kwargs : gmap string pyval) : formatter_t :=
  match kwargs !! "formatter" with
  | Some _ => fun _ _ => Raise TypeError
  | None => default default_formatter formatter
  end.

(** The comprehension that keeps the flag strings that are true: [None]
    and the empty string are dropped. *)
Definition keep_flagstr (flagstr : option string) : option string :=
  match flagstr with
  | Some "" => None
  | _ => flagstr
  end.

Definition flagstr_list (formatter : formatter_t)
    (kwargs : gmap string pyval) (flag_list : list pyval)
    : result (list string) :=
  do l <- traverse (fun flag => formatter flag (kwargs_get_flag kwargs flag))
                   flag_list;
  Ok (omap keep_flagstr l).

(** [cmd = '{0:s} {1:s}'.format(cmd, ' '.join(flagstr_list))], done when
    the list is not empty. *)
Definition add_flagstrs (cmd : string) (flagstrs : list string) : string :=
  match flagstrs with
  | [] => cmd
  | _ => cmd +:+ " " +:+ join " " flagstrs
  end.

(** The step "stdout file". *)
Definition add_outfile (cmd : string) (kwargs : gmap string pyval)
    : result string :=
  let outfile := kwargs_get kwargs "outfile" in
  if truthy outfile then
    do o <- format_s outfile; Ok (cmd +:+ " > " +:+ o)
  else Ok cmd.

(** The last step of every wrapper. *)
Definition finish (cmd : string) (kwargs : gmap string pyval) : outcome :=
  if truthy (kwargs_get kwargs "norun") then Returned cmd else Executed cmd.

(** The flag strings of a [calcsfh] call. *)
Definition calcsfh_flagstr_list (formatter : option formatter_t)
    (kwargs : gmap string pyval)
    : result (gmap string pyval * list string) :=
  do st <- calcsfh_flag_list kwargs;
  do l <- flagstr_list (get_formatter formatter (fst st)) (fst st) (snd st);
  Ok (fst st, l).

Definition calcsfh (paramfile photfile fakefile sfhfile : string)
    (formatter : option formatter_t) (kwargs : gmap string pyval)
    : result outcome :=
  let cmd := "calcsfh " +:+ paramfile +:+ " " +:+ photfile +:+ " "
             +:+ fakefile +:+ " " +:+ sfhfile in
  do r <- calcsfh_flagstr_list formatter kwargs;
  let cmd := add_flagstrs cmd (snd r) in
  do cmd <- add_outfile cmd (fst r);
  Ok (finish cmd (fst r)).

Definition hybridMC_flags : list pyval :=
  map PStr ["countall"; "dt"; "keepall"; "nburn"; "nmc"; "nt"; "nsfr";
            "pscape"; "tint"].

Definition hybridMC (hmcdatfile hmcsfhfile : string)
    (formatter : option formatter_t) (kwargs : gmap string pyval)
    : result outcome :=
  let cmd := "hybridMC " +:+ hmcsfhfile +:+ " " +:+ hmcdatfile in
  do l <- flagstr_list (get_formatter formatter kwargs) kwargs hybridMC_flags;
  let cmd := add_flagstrs cmd l in
  do cmd <- add_outfile cmd kwargs;
  Ok (finish cmd kwargs).

(** The step "Files": a string is used as it is, any other object is
    joined with [' '.join]. *)
Definition as_str (v : pyval) : result string :=
  match v with
  | PStr s => Ok s
  | _ => Raise TypeError
  end.

Definition join_files (files : pyval) : result string :=
  match files with
  | PStr s => Ok s
  | _ =>
      match py_iter files with
      | Some l => do strs <- traverse as_str l; Ok (join " " strs)
      | None => Raise TypeError
      end
  end.

Definition zcmerge (zcbfile_list : pyval) (merged_zcbfile : string)
    (kwargs : gmap string pyval) : result outcome :=
  let cmd := "zcmerge" in
  do flagstr <- default_formatter (PStr "absolute")
                                  (kwargs_get kwargs "absolute");
  let cmd := match keep_flagstr flagstr with
             | Some f => cmd +:+ " " +:+ f
             | None => cmd
             end in
  do files <- join_files zcbfile_list;
  let cmd := cmd +:+ " " +:+ files +:+ " > " +:+ merged_zcbfile in
  Ok (finish cmd kwargs).

Definition zcombine_flags : list pyval :=
  map PStr ["param"; "out"; "bestonly"; "unweighted"; "jeffreys"; "best";
            "sigma"; "pct16_84"; "fullwidth"; "meanbest"; "medbest"].

Definition zcombine (sfhfile : pyval) (zcbfile : string)
    (kwargs : gmap string pyval) : result outcome :=
  let cmd := "zcombine" in
  do l <- flagstr_list default_formatter kwargs zcombine_flags;
  let cmd := add_flagstrs cmd l in
  do files <- join_files sfhfile;
  let cmd := cmd +:+ " " +:+ files +:+ " > " +:+ zcbfile in
  Ok (finish cmd kwargs).

End Match.

(** ** The built-in [str.format]

    A model of [p.format(v)] of Python 2.7 for the format strings the
    module uses: literal text with doubled braces, replacement fields
    [{}], [{0}], [{:spec}], [{0:spec}], and the format specifications
    [s], [d], [.Nf] and the empty one. What lies outside (conversions,
    attribute and item access, nested fields, other specifications, the
    [str] of a float or of a container) is [None]. *)

Inductive fspec : Type :=
| SpecEmpty
| SpecS
| SpecD
| SpecF (prec : nat).

Definition digit_of (c : ascii) : option nat :=
  let n := nat_of_ascii c in
  if ((48 <=? n) && (n <=? 57))%nat then Some (n - 48)%nat else None.

Fixpoint nat_of_digits (acc : nat) (s : string) : option nat :=
  match s with
  | "" => Some acc
  | String c s' =>
      match digit_of c with
      | Some d => nat_of_digits (10 * acc + d)%nat s'
      | None => None
      end
  end.

(** The digits of a precision, up to the presentation type [f]. *)
Fixpoint parse_prec (acc : option nat) (s : string) : option nat :=
  match s with
  | "" => None
  | "f" => acc
  | String c s' =>
      match digit_of c with
      | Some d => parse_prec (Some (10 * default 0%nat acc + d)%nat) s'
      | None => None
      end
  end.

Definition parse_spec (s : string) : option fspec :=
  match s with
  | "" => Some SpecEmpty
  | "s" => Some SpecS
  | "d" => Some SpecD
  | String "." s' => SpecF <$> parse_prec None s'
  | _ => None
  end.

(** Rounding of [num / den] to the nearest integer, ties to even. *)
Definition round_half_even (num den : Z) : Z :=
  let q := num / den in
  match 2 * (num mod den) ?= den with
  | Lt => q
  | Gt => q + 1
  | Eq => if Z.even q then q else q + 1
  end.

(** [m * 2^e * 10^prec], correctly rounded to an integer. *)
Definition scaled (m : positive) (e : Z) (prec : nat) : Z :=
  let p := 10 ^ Z.of_nat prec in
  if 0 <=? e then Z.pos m * 2 ^ e * p
  else round_half_even (Z.pos m * p) (2 ^ (- e)).

Fixpoint zeros (n : nat) : string :=
  match n with
  | O => ""
  | S n' => String "0" (zeros n')
  end.

(** The digits of [n], with a point before the last [prec] of them. *)
Definition fixed_point (n : Z) (prec : nat) : string :=
  let ds := pretty (Z.to_N n) in
  let ds := zeros (S prec - String.length ds) +:+ ds in
  let int_len := (String.length ds - prec)%nat in
  match prec with
  | O => ds
  | _ => substring 0 int_len ds +:+ "." +:+ substring int_len prec ds
  end.

Definition sign_str (s : bool) : string := if s then "-" else "".

(** [format(x, '.Nf')] for a float [x]. *)
Definition format_float_f (x : spec_float) (prec : nat) : string :=
  match x with
  | S754_zero s => sign_str s +:+ fixed_point 0 prec
  | S754_infinity s => sign_str s +:+ "inf"
  | S754_nan => "nan"
  | S754_finite s m e => sign_str s +:+ fixed_point (scaled m e prec) prec
  end.

(** [float(z)] for an integer: the nearest binary64, or [OverflowError]. *)
Definition float_of_int (z : Z) : result spec_float :=
  match binary_normalize 53 1024 z 0 false with
  | S754_infinity _ => Raise OverflowError
  | x => Ok x
  end.

Definition format_int (z : Z) (sp : fspec) : result string :=
  match sp with
  | SpecD => Ok (pretty z)
  | SpecS => Raise ValueError
  | SpecF prec => do x <- float_of_int z; Ok (format_float_f x prec)
  | SpecEmpty => Ok (pretty z)
  end.

(** [format(v, spec)]. *)
Definition format_value (v : pyval) (sp : fspec) : option (result string) :=
  match v, sp with
  | PStr s, (SpecEmpty | SpecS) => Some (Ok s)
  | PStr _, _ => Some (Raise ValueError)
  | PInt z, _ => Some (format_int z sp)
  | PBool b, SpecEmpty => Some (Ok (if b then "True" else "False"))
  | PBool b, _ => Some (format_int (if b then 1 else 0) sp)
  | PFloat x, SpecF prec => Some (Ok (format_float_f x prec))
  | PFloat _, SpecEmpty => None
  | PFloat _, _ => Some (Raise ValueError)
  | PNone, (SpecEmpty | SpecS) => Some (Ok "None")
  | PNone, _ => Some (Raise ValueError)
  | (PList _ | PTuple _), (SpecEmpty | SpecS) => None
  | (PList _ | PTuple _), _ => Some (Raise ValueError)
  end.

(** Field numbering: not yet decided, automatic with the next index, or
    manual. *)
Inductive numbering : Type :=
| NumUnset
| NumAuto (next : nat)
| NumManual.

Definition is_sep (c : ascii) : bool :=
  (Ascii.eqb c ":" || Ascii.eqb c "!")%bool.

Fixpoint field_name (s : string) : string :=
  match s with
  | "" => ""
  | String c s' => if is_sep c then "" else String c (field_name s')
  end.

Fixpoint field_rest (s : string) : string :=
  match s with
  | "" => ""
  | String c s' => if is_sep c then s else field_rest s'
  end.

Fixpoint has_accessor (s : string) : bool :=
  match s with
  | "" => false
  | String c s' => (Ascii.eqb c "." || Ascii.eqb c "[" || has_accessor s')%bool
  end.

(** The index of the positional argument a field name refers to. *)
Definition resolve (name : string) (num : numbering)
    : option (result (nat * numbering)) :=
  match name with
  | "" =>
      match num with
      | NumManual => Some (Raise ValueError)
      | NumUnset => Some (Ok (0%nat, NumAuto 1))
      | NumAuto n => Some (Ok (n, NumAuto (S n)))
      end
  | _ =>
      match nat_of_digits 0 name with
      | Some i =>
          match num with
          | NumAuto _ => Some (Raise ValueError)
          | _ => Some (Ok (i, NumManual))
          end
      | None => if has_accessor name then None else Some (Raise KeyError)
      end
  end.

(** One replacement field, given the text between its braces. *)
Definition render_field (arg : pyval) (num : numbering) (field : string)
    : option (result (string * numbering)) :=
  match resolve (field_name field) num with
  | None => None
  | Some (Raise e) => Some (Raise e)
  | Some (Ok (i, num')) =>
      match i with
      | S _ => Some (Raise IndexError)
      | O =>
          let spec := match field_rest field with
                      | "" => Some ""
                      | String ":" sp => Some sp
                      | _ => None
                      end in
          match spec ≫= parse_spec with
          | None => None
          | Some sp =>
              match format_value arg sp with
              | None => None
              | Some (Raise e) => Some (Raise e)
              | Some (Ok s) => Some (Ok (s, num'))
              end
          end
      end
  end.

Inductive scan_state : Type :=
| Text
| Open
| Close
| Field (acc : string).

(** The format string is read from left to right; each field is rendered
    when its closing brace is met. *)
Fixpoint scan (arg : pyval) (p : string) (st : scan_state) (num : numbering)
    (out : string) : option (result string) :=
  match p with
  | "" =>
      match st with
      | Text => Some (Ok out)
      | _ => Some (Raise ValueError)
      end
  | String c p' =>
      let field_end acc :=
        match render_field arg num acc with
        | None => None
        | Some (Raise e) => Some (Raise e)
        | Some (Ok (s, num')) => scan arg p' Text num' (out +:+ s)
        end in
      match st with
      | Text =>
          if Ascii.eqb c "{" then scan arg p' Open num out
          else if Ascii.eqb c "}" then scan arg p' Close num out
          else scan arg p' Text num (out +:+ String c "")
      | Open =>
          if Ascii.eqb c "{" then scan arg p' Text num (out +:+ "{")
          else if Ascii.eqb c "}" then field_end ""
          else scan arg p' (Field (String c "")) num out
      | Close =>
          if Ascii.eqb c "}" then scan arg p' Text num (out +:+ "}")
          else Some (Raise ValueError)
      | Field acc =>
          if Ascii.eqb c "}" then field_end acc
          else if Ascii.eqb c "{" then None
          else scan arg p' (Field (acc +:+ String c "")) num out
      end
  end.

Definition py_format (p : string) (v : pyval) : option (result string) :=
  scan v p Text NumUnset "".

(** The model as a total function. *)
Definition py_str_format (p : string) (v : pyval) : result string :=
  default (Raise Unmodelled) (py_format p v).

(** The floats 1.5, 0.125 and 0.2 (the double nearest to it). *)
Definition float_1_5 : spec_float := S754_finite false 3 (-1).
Definition float_0_125 : spec_float := S754_finite false 1 (-3).
Definition float_0_2 : spec_float :=
  S754_finite false 3602879701896397 (-54).

(** ** Vocabulary of the statements *)

(** A sequence in the sense of the class docstring: a list or a tuple. *)
Definition py_seq (v : pyval) : option (list pyval) :=
  match v with
  | PList l | PTuple l => Some l
  | _ => None
  end.

(** A [FlagFormatter] instance with the given [fmt_dict], used as the
    [formatter] of a wrapper. *)
Definition FlagFormatter_instance
    (str_format : string -> pyval -> result string)
    (fmt_dict : gmap string pyval) : formatter_t :=
  fun key val => FlagFormatter_call str_format fmt_dict key val ",".

(** The values the docstring of [calcsfh] lists for [mode], and for
    [model] and [transformation]. *)
Definition mode_names : list string := ["setz"; "ssp"; "zinc"].

Definition model_names : list string :=
  ["BASTInov"; "BASTI"; "BASTI02nov"; "BASTI02"; "DART"; "PADUA00";
   "PADUA06"; "VICTORIA"; "VICTORIASS"].

(** A selection keyword is left at [None] or holds one of [names]. *)
Definition selection_in (names : list string) (v : pyval) : bool :=
  match v with
  | PNone => true
  | PStr s => bool_decide (s ∈ names)
  | _ => false
  end.

Definition documented_selections (kwargs : gmap string pyval) : bool :=
  selection_in mode_names (kwargs_get kwargs "mode")
  && selection_in model_names (kwargs_get kwargs "model")
  && selection_in model_names (kwargs_get kwargs "transformation").




(** The [formatter] keyword is left out or holds a [FlagFormatter]. *)
Definition is_FlagFormatter (str_format : string -> pyval -> result string)
    (formatter : option formatter_t) : Prop :=
  formatter = None
  \/ exists fmt_dict,
       formatter = Some (FlagFormatter_instance str_format fmt_dict).


(** [FlagFormatter(dAv=('{:d}', '{:d}', '{:d}'))]. *)
Definition three_ints : pyval := PTuple [PStr "{:d}"; PStr "{:d}"; PStr "{:d}"].

Definition fmt_dict_three_ints : gmap string pyval :=
  FlagFormatter_init {[ "dAv" := three_ints ]}.

(** [FlagFormatter(zerobin='{:s}')]. *)
Definition fmt_dict_zerobin_s : gmap string pyval :=
  FlagFormatter_init {[ "zerobin" := PStr "{:s}" ]}.



(** The value reaches the [elif] branch of [__call__]: it is not [True],
    and it is true or the integer zero. *)
Definition needs_format (v : pyval) : bool :=
  negb (is_True v) && (truthy v || is_int_zero v).

(** The strings of one character each that iterating over [s] yields. *)
Definition chars_of (s : string) : list string :=
  map (fun c => String c "") (list_ascii_of_string s).

(** An exception of the first attempt that the handler
    [except (TypeError, ValueError)] catches. *)
Definition caught_by_first_except (e : exn) : bool :=
  match e with
  | TypeError | ValueError => true
  | _ => false
  end.

(** The names in the [flag_list] of [zcombine]. *)
Definition zcombine_flag_names : list string :=
  ["param"; "out"; "bestonly"; "unweighted"; "jeffreys"; "best"; "sigma";
   "pct16_84"; "fullwidth"; "meanbest"; "medbest"].

(** The flag strings of the flags of [names] that are set to [True]. *)
Definition bare_flagstrs (kwargs : gmap string pyval) (names : list string)
    : list string :=
  omap (fun n => if is_True (kwargs_get kwargs n) then Some ("-" +:+ n)
                 else None) names.

(** A dry run and a real run that agree: the one returns the command the
    other executes, or both raise the same exception. *)
Definition dry_run_matches (dry real : result outcome) : Prop :=
  match dry, real with
  | Ok (Returned c1), Ok (Executed c2) => c1 = c2
  | Raise e1, Raise e2 => e1 = e2
  | _, _ => False
  end.

(** The [formatter] keyword is left out or holds a [FlagFormatter] made by
    the constructor. *)
Definition is_constructed_FlagFormatter
    (str_format : string -> pyval -> result string)
    (formatter : option formatter_t) : Prop :=
  formatter = None
  \/ exists overrides,
       formatter = Some (FlagFormatter_instance str_format
                           (FlagFormatter_init overrides)).

(** ** Properties of [FlagFormatter.__call__] *)

Section FormatterFacts.

Variable str_format : string -> pyval -> result string.

Lemma traverse_Forall2 {A B} (f : A -> result B) l ys :
  Forall2 (fun x y => f x = Ok y) l ys -> traverse f l = Ok ys.
Proof.
  induction 1 as [|x y l ys Hx _ IH]; simpl; [done|].
  by rewrite Hx; simpl; rewrite IH.
Qed.


(** The value [True] is rendered without a lookup. *)
Lemma call_True fmt_dict (n : string) delim :
  FlagFormatter_call str_format fmt_dict (PStr n) (PBool true) delim
  = Ok (Some ("-" +:+ n)).
Proof. reflexivity. Qed.

(** A false value other than the integer zero is omitted without a
    lookup. *)
Lemma call_falsy fmt_dict key val delim :
  truthy val = false -> is_int_zero val = false ->
  FlagFormatter_call str_format fmt_dict key val delim = Ok None.
Proof.
  intros Ht Hz. unfold FlagFormatter_call. rewrite Ht, Hz.
  destruct val as [|[]| | | | |]; done.
Qed.

(** (C1) A float zero, of either sign, is omitted: [__call__] returns
    [None] for it whatever the flag and its format rule, although the
    docstring lists only [False], [None] and the empty sequences, and the
    comment on the test says that zero is meaningful. *)
Theorem C1_float_zero_is_omitted fmt_dict key sgn delim :
  FlagFormatter_call str_format fmt_dict key (PFloat (S754_zero sgn)) delim
  = Ok None.
Proof. by apply call_falsy. Qed.

(** (C2, as amended) A rule that is a sequence of patterns and a
    non-empty sequence value are paired position by position up to the
    shorter of the two, and what is left over of the longer is ignored:
    when every pair formats, the call returns the token made of these
    sub-values, whether the two lengths agree or not. *)
Theorem C2_zip_pairs_up_to_the_shorter fmt_dict (n : string) rule val
    fs vs strs delim :
  fmt_dict !! n = Some rule ->
  py_seq rule = Some fs ->
  py_seq val = Some vs ->
  vs <> [] ->
  Forall2 (fun vf s => call_format str_format (snd vf) (fst vf) = Ok s)
          (zip vs fs) strs ->
  FlagFormatter_call str_format fmt_dict (PStr n) val delim
    = Ok (Some ("-" +:+ n +:+ "=" +:+ join delim strs))
  /\ length strs = Nat.min (length vs) (length fs).
Proof.
  intros Hn Hrule Hval Hvs HF. split.
  - apply traverse_Forall2 in HF.
    assert (Hz : format_zip str_format rule val = Ok strs).
    { unfold format_zip.
      destruct rule; try done; destruct val; try done;
        simpl in *; by simplify_eq. }
    unfold FlagFormatter_call, valstr_list.
    destruct val as [| | | | |l|l]; try done; simpl in Hval; simplify_eq;
      (destruct vs as [|v vs]; [done|]); cbn -[format_zip join];
      rewrite Hn; cbn -[format_zip join]; by rewrite Hz.
  - apply Forall2_length in HF. rewrite <- HF. apply length_zip.
Qed.

(** (C3, as amended) A non-empty string value is handed whole, and once,
    to the [format] method of the registered rule; it is neither zipped
    against the rule nor iterated over. The call returns the token when
    the rule is a single pattern that formats the string, and raises
    otherwise: the error of the pattern, or [AttributeError] when the rule
    is not a string (a sequence of patterns has no [format] method). *)
Theorem C3_string_is_formatted_whole fmt_dict (n : string) rule s delim :
  fmt_dict !! n = Some rule ->
  s <> "" ->
  FlagFormatter_call str_format fmt_dict (PStr n) (PStr s) delim =
    match rule with
    | PStr p =>
        match str_format p (PStr s) with
        | Ok t => Ok (Some ("-" +:+ n +:+ "=" +:+ t))
        | Raise e => Raise e
        end
    | _ => Raise AttributeError
    end.
Proof.
  intros Hn Hs. unfold FlagFormatter_call.
  destruct s as [|c s]; [done|]. cbn -[join]. rewrite Hn. cbn -[join].
  destruct rule; try done. simpl. by destruct (str_format _ _).
Qed.

(** (C4) A flag without a registered rule, given a value that reaches
    the [-name=value] branch (a true value other than [True], or the
    integer zero), makes [__call__] raise [KeyError], a [LookupError]. *)
Theorem C4_unregistered_flag_raises_LookupError fmt_dict (n : string)
    val delim :
  fmt_dict !! n = None ->
  is_True val = false ->
  truthy val || is_int_zero val = true ->
  FlagFormatter_call str_format fmt_dict (PStr n) val delim = Raise KeyError
  /\ is_LookupError KeyError = true.
Proof.
  intros Hn HT Hv. split; [|done].
  unfold FlagFormatter_call. rewrite HT, Hv. simpl. by rewrite Hn.
Qed.

(** (C5) For a registered flag [n] and the value [True], [__call__]
    returns exactly ["-n"]. *)
Theorem C5_True_renders_bare_flag fmt_dict (n : string) delim :
  is_Some (fmt_dict !! n) ->
  FlagFormatter_call str_format fmt_dict (PStr n) (PBool true) delim
  = Ok (Some ("-" +:+ n)).
Proof. intros _. apply call_True. Qed.

(** (C10) Whether the flag is registered or not, [True] and the false
    values other than the integer zero ([False], [None], the empty
    sequences) never reach the lookup: the call raises nothing, returns
    ["-name"] for [True] and [None] for the others, and so gives the
    same answer as an instance without any rule. *)
Theorem C10_no_lookup_for_True_and_false_values fmt_dict (n : string)
    val delim :
  val = PBool true \/ (truthy val = false /\ is_int_zero val = false) ->
  FlagFormatter_call str_format fmt_dict (PStr n) val delim
    = Ok (if is_True val then Some ("-" +:+ n) else None)
  /\ FlagFormatter_call str_format fmt_dict (PStr n) val delim
     = FlagFormatter_call str_format ∅ (PStr n) val delim.
Proof.
  intros [->|[Ht Hz]].
  - by rewrite !call_True.
  - rewrite !call_falsy by done. by destruct val as [|[]| | | | |].
Qed.

End FormatterFacts.


(** ** Properties of the constructor *)

Lemma FlagFormatter_init_lookup (kwargs : gmap string pyval) (k : string) :
  FlagFormatter_init kwargs !! k =
    match default_fmt_dict !! k with
    | Some d => Some (default d (kwargs !! k))
    | None => None
    end.
Proof.
  unfold FlagFormatter_init. revert k.
  apply (map_fold_weak_ind (fun r (m : gmap string pyval) => forall k,
           r !! k = match default_fmt_dict !! k with
                    | Some d => Some (default d (m !! k))
                    | None => None
                    end)).
  - intros k. rewrite lookup_empty. by destruct (default_fmt_dict !! k).
  - intros i x m r Hi IH k. unfold override.
    destruct (r !! i) as [y|] eqn:Hri; destruct (decide (i = k)) as [->|Hne].
    + rewrite !lookup_insert_eq. rewrite IH in Hri.
      by destruct (default_fmt_dict !! k).
    + rewrite !lookup_insert_ne by done. apply IH.
    + rewrite lookup_insert_eq. rewrite IH in Hri. rewrite IH.
      by destruct (default_fmt_dict !! k).
    + rewrite lookup_insert_ne by done. apply IH.
Qed.

(** (C6) The constructor replaces the default pattern of every override
    key that the default mapping has, and ignores every override key that
    it has not; with unknown keys only, the mapping is the default one. *)
Theorem C6_overrides_only_known_keys (kwargs : gmap string pyval) :
  (forall k v d, kwargs !! k = Some v -> default_fmt_dict !! k = Some d ->
                 FlagFormatter_init kwargs !! k = Some v)
  /\ (forall k, kwargs !! k = None ->
                FlagFormatter_init kwargs !! k = default_fmt_dict !! k)
  /\ (forall k, default_fmt_dict !! k = None ->
                FlagFormatter_init kwargs !! k = None)
  /\ ((forall k, is_Some (kwargs !! k) -> default_fmt_dict !! k = None) ->
      FlagFormatter_init kwargs = default_fmt_dict).
Proof.
  repeat split.
  - intros k v d Hk Hd. by rewrite FlagFormatter_init_lookup, Hd, Hk.
  - intros k Hk. rewrite FlagFormatter_init_lookup, Hk.
    by destruct (default_fmt_dict !! k).
  - intros k Hd. by rewrite FlagFormatter_init_lookup, Hd.
  - intros Hunknown. apply map_eq. intros k.
    rewrite FlagFormatter_init_lookup.
    destruct (default_fmt_dict !! k) as [d|] eqn:Hd; [|done].
    destruct (kwargs !! k) as [v|] eqn:Hk; [|done].
    rewrite Hunknown in Hd by (by rewrite Hk). done.
Qed.

(** ** Properties of the wrapper functions *)

Lemma append_cons (x : ascii) (a b : string) :
  String x a +:+ b = String x (a +:+ b).
Proof. reflexivity. Qed.

Lemma append_nil_l (a : string) : "" +:+ a = a.
Proof. reflexivity. Qed.

Lemma append_assoc (a b c : string) : (a +:+ b) +:+ c = a +:+ (b +:+ c).
Proof.
  induction a as [|x a IH]; [done|]. by rewrite !append_cons, IH.
Qed.

Lemma append_nil_r (a : string) : a +:+ "" = a.
Proof. induction a as [|x a IH]; [done|]. by rewrite append_cons, IH. Qed.





Section WrapperFacts.

Variable str_format : string -> pyval -> result string.

Lemma add_flagstrs_prefix (cmd : string) (l : list string) :
  exists rest, add_flagstrs cmd l = cmd +:+ rest.
Proof.
  destruct l as [|t l].
  - exists "". simpl. by rewrite append_nil_r.
  - by eexists.
Qed.

Lemma add_outfile_prefix (cmd cmd' : string) (kwargs : gmap string pyval) :
  add_outfile str_format cmd kwargs = Ok cmd' ->
  exists rest, cmd' = cmd +:+ rest.
Proof.
  unfold add_outfile. destruct (truthy _).
  - destruct (format_s _ _) as [o|e]; simpl; [|done].
    intros [= <-]. by eexists.
  - intros [= <-]. exists "". by rewrite append_nil_r.
Qed.

(** (C8) With [norun] set, a [hybridMC] call that returns gives back a
    command that begins with [hybridMC], the SFH file and then the data
    file, the reverse of the order of its own parameters; and it does
    return, with that command, whenever the flags and the [outfile]
    render. *)
Theorem C8_hybridMC_swaps_positionals (hmcdatfile hmcsfhfile : string)
    (formatter : option formatter_t) (kwargs : gmap string pyval) :
  truthy (kwargs_get kwargs "norun") = true ->
  (forall out,
      hybridMC str_format hmcdatfile hmcsfhfile formatter kwargs = Ok out ->
      exists rest,
        out = Returned ("hybridMC " +:+ hmcsfhfile +:+ " " +:+ hmcdatfile
                        +:+ rest))
  /\ (forall l cmd,
      flagstr_list (get_formatter str_format formatter kwargs) kwargs
                   hybridMC_flags = Ok l ->
      add_outfile str_format
        (add_flagstrs ("hybridMC " +:+ hmcsfhfile +:+ " " +:+ hmcdatfile) l)
        kwargs = Ok cmd ->
      hybridMC str_format hmcdatfile hmcsfhfile formatter kwargs
        = Ok (Returned cmd)).
Proof.
  intros Hnorun. unfold hybridMC, finish. rewrite Hnorun. split.
  - intros out.
    destruct (flagstr_list _ _ _) as [l|e]; simpl; [|done].
    destruct (add_outfile _ _ _) as [cmd|e] eqn:Hout; simpl; [|done].
    intros [= <-].
    apply add_outfile_prefix in Hout as [r2 ->].
    destruct (add_flagstrs_prefix
                ("hybridMC " +:+ hmcsfhfile +:+ " " +:+ hmcdatfile) l)
      as [r1 ->].
    exists (r1 +:+ r2). by rewrite !append_assoc.
  - intros l cmd -> . simpl. by intros ->.
Qed.

(** (C9) The call of the specification's example returns exactly the
    command with the [-absolute] token, the input files in order and the
    redirection. *)
Theorem C9_zcmerge_example :
  zcmerge str_format
    (PList [PStr "real.zcb"; PStr "sim1.zcb"; PStr "sim2.zcb"]) "merged.zcb"
    {[ "absolute" := PBool true; "norun" := PBool true ]}
  = Ok (Returned "zcmerge -absolute real.zcb sim1.zcb sim2.zcb > merged.zcb").
Proof. reflexivity. Qed.

End WrapperFacts.

(** ** [calcsfh]: the flag [alpha] *)











Lemma traverse_ext {A B} (f g : A -> result B) (l : list A) :
  (forall x, x ∈ l -> f x = g x) -> traverse f l = traverse g l.
Proof.
  induction l as [|x l IH]; intros Hfg; [done|]. simpl.
  rewrite (Hfg x) by left. rewrite IH; [done|].
  intros y Hy. apply Hfg. by right.
Qed.












Section CalcsfhFacts.

Variable str_format : string -> pyval -> result string.







End CalcsfhFacts.

(** ** The statements at concrete calls

    The calls below are evaluated with the model [py_str_format] of the
    built-in. *)

(** The examples of the specification. *)
Example zerobin_zero :
  FlagFormatter_call py_str_format (FlagFormatter_init ∅) (PStr "zerobin")
                     (PInt 0) "," = Ok (Some "-zerobin=0").
Proof. reflexivity. Qed.

Example single_pattern_1_5 :
  FlagFormatter_call py_str_format (FlagFormatter_init ∅) (PStr "dAv")
                     (PFloat float_1_5) "," = Ok (Some "-dAv=1.50").
Proof. reflexivity. Qed.

Example three_patterns :
  FlagFormatter_call py_str_format
    (FlagFormatter_init
       {[ "dAv" := PTuple [PStr "{:.1f}"; PStr "{:.2f}"; PStr "{:.3f}"] ]})
    (PStr "dAv") (PTuple [PInt 1; PInt 2; PInt 3]) ","
  = Ok (Some "-dAv=1.0,2.00,3.000").
Proof. reflexivity. Qed.

Example one_pattern_for_all :
  FlagFormatter_call py_str_format (FlagFormatter_init ∅) (PStr "diskAv")
    (PTuple [PFloat float_0_2; PFloat float_1_5; PInt 3; PInt 0]) ","
  = Ok (Some "-diskAv=0.20,1.50,3.00,0.00").
Proof. reflexivity. Qed.

Example calcsfh_ssp :
  calcsfh py_str_format "par" "phot" "fake" "sfh" None
    {[ "mode" := PStr "ssp"; "norun" := PBool true ]}
  = Ok (Returned "calcsfh par phot fake sfh -ssp").
Proof. reflexivity. Qed.

Example calcsfh_DART_alpha :
  calcsfh py_str_format "par" "phot" "fake" "sfh" None
    {[ "model" := PStr "DART"; "alpha" := PFloat float_0_2;
       "norun" := PBool true ]}
  = Ok (Returned "calcsfh par phot fake sfh -DART -alpha=0.20").
Proof. reflexivity. Qed.

(** [FlagFormatter()('dAv', 0.0)] is [None]. *)
Example float_zero_dAv :
  FlagFormatter_call py_str_format (FlagFormatter_init ∅) (PStr "dAv")
                     (PFloat (S754_zero false)) "," = Ok None.
Proof. reflexivity. Qed.

(** (C2, as stated) Three patterns and two values: the call returns a
    token and reports nothing. *)
Lemma C2_counterexample :
  fmt_dict_three_ints !! "dAv" = Some three_ints
  /\ length [PInt 1; PInt 2] <> length [PStr "{:d}"; PStr "{:d}"; PStr "{:d}"]
  /\ FlagFormatter_call py_str_format fmt_dict_three_ints (PStr "dAv")
                        (PTuple [PInt 1; PInt 2]) ","
     = Ok (Some "-dAv=1,2").
Proof.
  split; [vm_compute; reflexivity|]. split; [discriminate|reflexivity].
Qed.

Lemma C2_witness :
  FlagFormatter_call py_str_format fmt_dict_three_ints (PStr "dAv")
                     (PTuple [PInt 1; PInt 2]) ","
    = Ok (Some ("-" +:+ "dAv" +:+ "=" +:+ join "," ["1"; "2"]))
  /\ length ["1"; "2"] = Nat.min 2 3.
Proof.
  apply (C2_zip_pairs_up_to_the_shorter py_str_format fmt_dict_three_ints
           "dAv" three_ints (PTuple [PInt 1; PInt 2])
           [PStr "{:d}"; PStr "{:d}"; PStr "{:d}"] [PInt 1; PInt 2]
           ["1"; "2"] ",").
  - vm_compute; reflexivity.
  - reflexivity.
  - reflexivity.
  - discriminate.
  - repeat constructor.
Defined.

(** (C3, as stated) A registered flag and a string value without a token:
    with a rule that is a sequence of patterns the call raises
    [AttributeError], with the default rule the pattern rejects the string,
    and the empty string is omitted. *)
Lemma C3_counterexample :
  (is_Some (FlagFormatter_init {[ "dAv" := PTuple [PStr "{:s}"; PStr "{:s}"] ]}
            !! "dAv")
   /\ FlagFormatter_call py_str_format
        (FlagFormatter_init {[ "dAv" := PTuple [PStr "{:s}"; PStr "{:s}"] ]})
        (PStr "dAv") (PStr "abc") "," = Raise AttributeError)
  /\ (is_Some (FlagFormatter_init ∅ !! "dAv")
      /\ FlagFormatter_call py_str_format (FlagFormatter_init ∅) (PStr "dAv")
                            (PStr "abc") "," = Raise ValueError
      /\ FlagFormatter_call py_str_format (FlagFormatter_init ∅) (PStr "dAv")
                            (PStr "") "," = Ok None).
Proof.
  split; [split|split; [|split]]; try reflexivity;
    eexists; vm_compute; reflexivity.
Qed.

Lemma C3_witness :
  FlagFormatter_call py_str_format fmt_dict_zerobin_s (PStr "zerobin")
                     (PStr "abc") ","
  = Ok (Some ("-" +:+ "zerobin" +:+ "=" +:+ "abc")).
Proof.
  apply (C3_string_is_formatted_whole py_str_format fmt_dict_zerobin_s
           "zerobin" (PStr "{:s}") "abc" ",").
  - vm_compute; reflexivity.
  - discriminate.
Defined.

Lemma C4_witness :
  FlagFormatter_call py_str_format (FlagFormatter_init ∅) (PStr "appDmod")
                     (PStr "24.47") "," = Raise KeyError
  /\ is_LookupError KeyError = true.
Proof.
  apply (C4_unregistered_flag_raises_LookupError py_str_format
           (FlagFormatter_init ∅) "appDmod" (PStr "24.47") ",").
  - vm_compute; reflexivity.
  - reflexivity.
  - reflexivity.
Defined.

Lemma C5_witness :
  FlagFormatter_call py_str_format (FlagFormatter_init ∅) (PStr "dAv")
                     (PBool true) "," = Ok (Some ("-" +:+ "dAv")).
Proof.
  apply (C5_True_renders_bare_flag py_str_format (FlagFormatter_init ∅)
           "dAv" ",").
  eexists. vm_compute; reflexivity.
Defined.

Lemma C6_witness :
  FlagFormatter_init {[ "bogus" := PStr "{:d}" ]} = default_fmt_dict.
Proof.
  apply (C6_overrides_only_known_keys {[ "bogus" := PStr "{:d}" ]}).
  intros k [v Hk]. apply lookup_singleton_Some in Hk as [<- _].
  vm_compute; reflexivity.
Defined.


Lemma C8_witness :
  exists rest,
    Returned "hybridMC b.sfh a.dat -nmc=5"
    = Returned ("hybridMC " +:+ "b.sfh" +:+ " " +:+ "a.dat" +:+ rest).
Proof.
  apply (C8_hybridMC_swaps_positionals py_str_format "a.dat" "b.sfh" None
           {[ "nmc" := PInt 5; "norun" := PBool true ]}).
  - vm_compute; reflexivity.
  - vm_compute; reflexivity.
Defined.

Lemma C10_witness :
  FlagFormatter_call py_str_format (FlagFormatter_init ∅) (PStr "nosuchflag")
                     PNone "," = Ok None
  /\ FlagFormatter_call py_str_format (FlagFormatter_init ∅)
                        (PStr "nosuchflag") PNone ","
     = FlagFormatter_call py_str_format ∅ (PStr "nosuchflag") PNone ",".
Proof.
  apply (C10_no_lookup_for_True_and_false_values py_str_format
           (FlagFormatter_init ∅) "nosuchflag" PNone ",").
  right. split; reflexivity.
Defined.

(** The values that cannot be iterated over and reach the [elif] branch
    are the integers and the floats other than zero. *)
Lemma scalar_needs_format (val : pyval) :
  py_iter val = None /\ needs_format val = true
  <-> (exists z, val = PInt z)
      \/ (exists x, val = PFloat x /\ forall sgn, x <> S754_zero sgn).
Proof.
  split.
  - intros [Hit Hn]. destruct val as [|[]|z|x| | |]; try done.
    + left. by eexists.
    + right. eexists. split; [done|]. intros sgn ->. done.
  - intros [[z ->]|(x & -> & Hx)].
    + split; [done|]. unfold needs_format. simpl.
      destruct z; done.
    + split; [done|]. unfold needs_format. simpl.
      destruct x as [sgn| | |]; try done. by destruct (Hx sgn).
Qed.

(** ** Further properties of [FlagFormatter.__call__] *)

Section FormatterMore.

Variable str_format : string -> pyval -> result string.

(** A value that cannot be iterated over and that reaches the [elif]
    branch, that is any integer (zero included) or any float other than
    zero, goes through both failed attempts and is formatted once, as a
    whole, with the rule; the delimiter plays no part. A rule that is not
    a string has no [format] method. *)
Theorem call_scalar_formats_once (fmt_dict : gmap string pyval) (n : string)
    (rule val : pyval) (delim : string) :
  fmt_dict !! n = Some rule ->
  py_iter val = None ->
  needs_format val = true ->
  FlagFormatter_call str_format fmt_dict (PStr n) val delim =
    match call_format str_format rule val with
    | Ok t => Ok (Some ("-" +:+ n +:+ "=" +:+ t))
    | Raise e => Raise e
    end.
Proof.
  intros Hn Hit [HT Hv]%andb_true_iff. apply negb_true_iff in HT.
  unfold FlagFormatter_call. rewrite HT, Hv.
  cbn [fmt_dict_getitem bind]. rewrite Hn. cbn [bind].
  unfold valstr_list, format_zip, format_each. rewrite Hit.
  assert (is_basestring val = false) as -> by (by destruct val).
  by destruct (call_format _ _ _).
Qed.

(** A single pattern that begins with a brace is used for every item of
    a sequence value: pairing the items with the characters of the pattern
    fails at the first one, a lone brace, and the second attempt formats
    each item with the whole pattern. *)
Theorem call_one_pattern_for_every_item (fmt_dict : gmap string pyval)
    (n p : string) (val v : pyval) (vs : list pyval) (strs : list string)
    (delim : string) :
  fmt_dict !! n = Some (PStr (String "{" p)) ->
  py_seq val = Some (v :: vs) ->
  str_format "{" v = Raise ValueError ->
  Forall2 (fun x s => str_format (String "{" p) x = Ok s) (v :: vs) strs ->
  FlagFormatter_call str_format fmt_dict (PStr n) val delim
  = Ok (Some ("-" +:+ n +:+ "=" +:+ join delim strs)).
Proof.
  intros Hn Hval Hbrace HF.
  apply (traverse_Forall2 (fun x => call_format str_format
                                      (PStr (String "{" p)) x)) in HF.
  assert (format_zip str_format (PStr (String "{" p)) val
          = Raise ValueError) as Hfz.
  { unfold format_zip.
    destruct val; try done; simpl in Hval; simplify_eq;
      cbn [py_iter char_strings list_ascii_of_string map zip zip_with
           traverse call_format fst snd]; by rewrite Hbrace. }
  assert (format_each str_format (PStr (String "{" p)) val = Ok strs) as Hfe.
  { unfold format_each. destruct val; try done; simpl in Hval; by simplify_eq. }
  assert (valstr_list str_format (PStr (String "{" p)) val = Ok strs) as Hl.
  { unfold valstr_list. rewrite Hfz, Hfe. by destruct val. }
  unfold FlagFormatter_call.
  assert (is_True val = false) as -> by (by destruct val).
  assert (truthy val = true) as -> by (destruct val; by simplify_eq/=).
  cbn [orb fmt_dict_getitem]. rewrite Hn. cbn [bind]. by rewrite Hl.
Qed.

Lemma traverse_zip_literal (lit rest : string) (vs : list pyval) :
  length vs = String.length lit ->
  (forall c v, c ∈ list_ascii_of_string lit ->
               str_format (String c "") v = Ok (String c "")) ->
  traverse (fun vf => call_format str_format (snd vf) (fst vf))
           (zip vs (char_strings (lit +:+ rest)))
  = Ok (chars_of lit).
Proof.
  revert vs. induction lit as [|c lit IH]; intros vs Hlen Hsf.
  - by destruct vs.
  - destruct vs as [|v vs]; [done|].
    rewrite append_cons.
    cbn [char_strings list_ascii_of_string map zip zip_with traverse
         call_format fst snd chars_of].
    rewrite Hsf by left. cbn [bind].
    unfold char_strings, chars_of in IH. rewrite IH; [done|by simplify_eq/=|].
    intros c' v' Hc'. apply Hsf. by right.
Qed.

(** A pattern that begins with literal text misleads the first attempt:
    a sequence value as long as that text is paired with its characters,
    each character formats to itself, and the token holds the characters
    in place of the values. *)
Theorem call_literal_prefix_hides_values (fmt_dict : gmap string pyval)
    (n lit rest : string) (val : pyval) (vs : list pyval) (delim : string) :
  fmt_dict !! n = Some (PStr (lit +:+ rest)) ->
  py_seq val = Some vs ->
  vs <> [] ->
  length vs = String.length lit ->
  (forall c v, c ∈ list_ascii_of_string lit ->
               str_format (String c "") v = Ok (String c "")) ->
  FlagFormatter_call str_format fmt_dict (PStr n) val delim
  = Ok (Some ("-" +:+ n +:+ "=" +:+ join delim (chars_of lit))).
Proof.
  intros Hn Hval Hvs Hlen Hsf.
  pose proof (traverse_zip_literal lit rest vs Hlen Hsf) as Hz.
  assert (valstr_list str_format (PStr (lit +:+ rest)) val
          = Ok (chars_of lit)) as Hl.
  { unfold valstr_list, format_zip.
    destruct val; try done; simpl in Hval; simplify_eq;
      cbn [is_basestring py_iter]; by rewrite Hz. }
  unfold FlagFormatter_call.
  assert (is_True val = false) as -> by (by destruct val).
  assert (truthy val = true) as ->
    by (destruct val; simplify_eq/=; by destruct vs).
  cbn [orb fmt_dict_getitem]. rewrite Hn. cbn [bind]. by rewrite Hl.
Qed.

(** When a sequence of patterns meets a sequence value and a pair fails
    with [TypeError] or [ValueError], the handler falls back to formatting
    each item with the rule itself, which has no [format] method: the
    caller sees [AttributeError], not the error of the pair. Any other
    error of a pair is passed on. *)
Theorem call_failed_pair_raises_AttributeError
    (fmt_dict : gmap string pyval) (n : string) (rule val : pyval)
    (fs vs : list pyval) (e : exn) (delim : string) :
  fmt_dict !! n = Some rule ->
  py_seq rule = Some fs ->
  py_seq val = Some vs ->
  vs <> [] ->
  traverse (fun vf => call_format str_format (snd vf) (fst vf)) (zip vs fs)
    = Raise e ->
  FlagFormatter_call str_format fmt_dict (PStr n) val delim
  = Raise (if caught_by_first_except e then AttributeError else e).
Proof.
  intros Hn Hrule Hval Hvs Hz.
  assert (format_zip str_format rule val = Raise e) as Hfz.
  { unfold format_zip.
    destruct rule; try done; destruct val; try done;
      simpl in *; by simplify_eq. }
  assert (format_each str_format rule val = Raise AttributeError) as Hfe.
  { unfold format_each.
    destruct val; try done; simpl in Hval; simplify_eq;
      (destruct vs as [|v vs]; [done|]);
      destruct rule; try done. }
  unfold FlagFormatter_call.
  assert (is_True val = false) as -> by (by destruct val).
  assert (truthy val = true) as ->
    by (destruct val; simplify_eq/=; by destruct vs).
  cbn [orb fmt_dict_getitem]. rewrite Hn. cbn [bind].
  unfold valstr_list.
  assert (is_basestring val = false) as -> by (by destruct val).
  rewrite Hfz, Hfe. by destruct e.
Qed.

End FormatterMore.

(** ** Further properties of the constructor *)

(** The constructor neither adds nor removes a flag: every instance has
    exactly the flags of the default mapping, whatever the overrides. *)
Theorem init_keeps_the_registered_flags (kwargs : gmap string pyval) :
  dom (FlagFormatter_init kwargs) = dom default_fmt_dict.
Proof.
  apply set_eq. intros k. rewrite !elem_of_dom, FlagFormatter_init_lookup.
  destruct (default_fmt_dict !! k); split; intros [x Hx]; by eauto.
Qed.

Lemma init_unregistered (kwargs : gmap string pyval) (n : string) :
  default_fmt_dict !! n = None -> FlagFormatter_init kwargs !! n = None.
Proof. intros Hn. by rewrite FlagFormatter_init_lookup, Hn. Qed.

(** ** Further properties of the wrapper functions *)

Section WrapperMore.

Variable str_format : string -> pyval -> result string.

(** What a constructed [FlagFormatter] does with a flag that the default
    mapping does not have. *)
Lemma unregistered_flag (overrides : gmap string pyval) (n : string)
    (v : pyval) :
  default_fmt_dict !! n = None ->
  FlagFormatter_instance str_format (FlagFormatter_init overrides) (PStr n) v
  = if needs_format v then Raise KeyError
    else Ok (if is_True v then Some ("-" +:+ n) else None).
Proof.
  intros Hn. unfold FlagFormatter_instance, FlagFormatter_call, needs_format.
  destruct (is_True v); [done|]. cbn [negb andb].
  destruct (truthy v || is_int_zero v); [|done].
  cbn [fmt_dict_getitem]. by rewrite (init_unregistered _ _ Hn).
Qed.

Lemma flagstr_list_unregistered (kwargs : gmap string pyval)
    (names : list string) :
  Forall (fun n => default_fmt_dict !! n = None) names ->
  flagstr_list (default_formatter str_format) kwargs (map PStr names)
  = if existsb (fun n => needs_format (kwargs_get kwargs n)) names
    then Raise KeyError
    else Ok (bare_flagstrs kwargs names).
Proof.
  unfold flagstr_list, bare_flagstrs.
  induction 1 as [|n names Hn _ IH]; [done|].
  cbn [map traverse existsb kwargs_get_flag].
  change (default_formatter str_format (PStr n) (kwargs_get kwargs n))
    with (FlagFormatter_instance str_format (FlagFormatter_init ∅) (PStr n)
            (kwargs_get kwargs n)).
  rewrite (unregistered_flag ∅ n _ Hn).
  destruct (needs_format (kwargs_get kwargs n)); [done|]. cbn [orb bind].
  destruct (existsb _ names).
  - by destruct (traverse _ _).
  - destruct (traverse _ _) as [l|]; [|done]. cbn [bind] in *.
    injection IH as IH. cbn [omap list_omap]. rewrite IH.
    by destruct (is_True (kwargs_get kwargs n)).
Qed.

Lemma zcombine_flags_unregistered :
  Forall (fun n => default_fmt_dict !! n = None) zcombine_flag_names.
Proof. repeat constructor. Qed.

(** [zcombine] can only pass flags that are set to [True]: none of its
    flags has a format string, so a flag with any other true value, or
    with the integer zero, makes the call raise [KeyError]. This includes
    the options [param], [out] and [best], documented as strings. *)
Theorem zcombine_valued_flag_raises_KeyError (sfhfile : pyval)
    (zcbfile : string) (kwargs : gmap string pyval) (n : string) :
  n ∈ zcombine_flag_names ->
  needs_format (kwargs_get kwargs n) = true ->
  zcombine str_format sfhfile zcbfile kwargs = Raise KeyError.
Proof.
  intros Hin Hn. unfold zcombine.
  change zcombine_flags with (map PStr zcombine_flag_names).
  rewrite (flagstr_list_unregistered _ _ zcombine_flags_unregistered).
  assert (existsb (fun n => needs_format (kwargs_get kwargs n))
                  zcombine_flag_names = true) as ->; [|done].
  apply existsb_exists. exists n. split; [|done]. by apply list_elem_of_In.
Qed.

(** When every flag of [zcombine] is [True], [False], [None] or otherwise
    false, the command is [zcombine], the flags that are [True] in the
    order of the flag list, the input files and the redirection to the
    output file. *)
Theorem zcombine_command (sfhfile : pyval) (zcbfile : string)
    (kwargs : gmap string pyval) :
  (forall n, n ∈ zcombine_flag_names ->
             needs_format (kwargs_get kwargs n) = false) ->
  zcombine str_format sfhfile zcbfile kwargs
  = do files <- join_files sfhfile;
    Ok (finish (add_flagstrs "zcombine"
                  (bare_flagstrs kwargs zcombine_flag_names)
                +:+ " " +:+ files +:+ " > " +:+ zcbfile) kwargs).
Proof.
  intros Hall. unfold zcombine.
  change zcombine_flags with (map PStr zcombine_flag_names).
  rewrite (flagstr_list_unregistered _ _ zcombine_flags_unregistered).
  assert (existsb (fun n => needs_format (kwargs_get kwargs n))
                  zcombine_flag_names = false) as ->; [|done].
  apply not_true_iff_false. intros (n & Hin & Hn)%existsb_exists.
  apply list_elem_of_In in Hin. by rewrite (Hall n Hin) in Hn.
Qed.

Lemma traverse_as_str (paths : list string) :
  traverse as_str (map PStr paths) = Ok paths.
Proof.
  induction paths as [|x paths IH]; [done|]. simpl. by rewrite IH.
Qed.

(** [zcmerge] on any list of paths: with [absolute] set to [True] or to a
    false value, the command is [zcmerge], the flag if it is [True], the
    paths in order and joined by spaces, and the redirection; any other
    value of [absolute] raises [KeyError], as the flag has no format
    string. *)
Theorem zcmerge_command (paths : list string) (merged_zcbfile : string)
    (kwargs : gmap string pyval) :
  zcmerge str_format (PList (map PStr paths)) merged_zcbfile kwargs
  = let absolute := kwargs_get kwargs "absolute" in
    if needs_format absolute then Raise KeyError
    else Ok (finish ("zcmerge"
                     +:+ (if is_True absolute then " -absolute" else "")
                     +:+ " " +:+ join " " paths
                     +:+ " > " +:+ merged_zcbfile) kwargs).
Proof.
  unfold zcmerge.
  change (default_formatter str_format (PStr "absolute")
            (kwargs_get kwargs "absolute"))
    with (FlagFormatter_instance str_format (FlagFormatter_init ∅)
            (PStr "absolute") (kwargs_get kwargs "absolute")).
  rewrite (unregistered_flag ∅ "absolute") by done. cbn zeta.
  destruct (needs_format _); [done|]. cbn [bind].
  cbn [join_files py_iter]. rewrite traverse_as_str. cbn [bind].
  by destruct (is_True _).
Qed.

(** A single path given as a string does what the list with that one
    path does, in [zcmerge] and in [zcombine]. *)
Theorem single_path_is_one_element_list (path out : string)
    (kwargs : gmap string pyval) :
  zcmerge str_format (PStr path) out kwargs
  = zcmerge str_format (PList [PStr path]) out kwargs
  /\ zcombine str_format (PStr path) out kwargs
     = zcombine str_format (PList [PStr path]) out kwargs.
Proof. split; reflexivity. Qed.

Lemma flagstr_list_ext (fm : formatter_t) (kw1 kw2 : gmap string pyval)
    (fl : list pyval) :
  (forall flag, flag ∈ fl ->
                kwargs_get_flag kw1 flag = kwargs_get_flag kw2 flag) ->
  flagstr_list fm kw1 fl = flagstr_list fm kw2 fl.
Proof.
  intros H. unfold flagstr_list.
  rewrite (traverse_ext _ (fun flag => fm flag (kwargs_get_flag kw2 flag)));
    [done|].
  intros flag Hin. by rewrite (H flag Hin).
Qed.

Lemma kwargs_get_insert_ne (kw : gmap string pyval) (k k' : string)
    (v : pyval) :
  k <> k' -> kwargs_get (<[k := v]> kw) k' = kwargs_get kw k'.
Proof. intros. unfold kwargs_get. by rewrite lookup_insert_ne. Qed.

Lemma kwargs_get_insert (kw : gmap string pyval) (k : string) (v : pyval) :
  kwargs_get (<[k := v]> kw) k = v.
Proof. unfold kwargs_get. by rewrite lookup_insert_eq. Qed.

Lemma flagstr_list_norun (fm : formatter_t) (kw : gmap string pyval)
    (names : list string) (v : pyval) :
  "norun" ∉ names ->
  flagstr_list fm (<["norun" := v]> kw) (map PStr names)
  = flagstr_list fm kw (map PStr names).
Proof.
  intros Hnot. apply flagstr_list_ext.
  intros flag (n & -> & Hn)%list_elem_of_fmap. simpl.
  apply kwargs_get_insert_ne. by intros <-.
Qed.

(** In [hybridMC], [zcmerge] and [zcombine] the keyword [norun] decides
    only between returning and running: a dry run returns exactly the
    command that the same call without it passes to the shell, and it
    raises exactly when that call raises. *)
Theorem dry_run_shows_the_executed_command (dat sfh : string)
    (files : pyval) (out : string) (formatter : option formatter_t)
    (kwargs : gmap string pyval) (yes no : pyval) :
  truthy yes = true ->
  truthy no = false ->
  dry_run_matches
    (hybridMC str_format dat sfh formatter (<["norun" := yes]> kwargs))
    (hybridMC str_format dat sfh formatter (<["norun" := no]> kwargs))
  /\ dry_run_matches
       (zcmerge str_format files out (<["norun" := yes]> kwargs))
       (zcmerge str_format files out (<["norun" := no]> kwargs))
  /\ dry_run_matches
       (zcombine str_format files out (<["norun" := yes]> kwargs))
       (zcombine str_format files out (<["norun" := no]> kwargs)).
Proof.
  intros Hyes Hno. repeat split.
  - unfold hybridMC, get_formatter, add_outfile, finish.
    rewrite !lookup_insert_ne by done.
    change hybridMC_flags
      with (map PStr ["countall"; "dt"; "keepall"; "nburn"; "nmc"; "nt";
                      "nsfr"; "pscape"; "tint"]).
    rewrite !flagstr_list_norun
      by (apply (bool_decide_unpack _); by vm_compute).
    rewrite !kwargs_get_insert, !kwargs_get_insert_ne by done.
    rewrite Hyes, Hno.
    destruct (flagstr_list _ _ _) as [l|]; [|done]. cbn [bind].
    destruct (truthy (kwargs_get kwargs "outfile")); [|done].
    by destruct (format_s _ _).
  - unfold zcmerge, finish.
    rewrite !kwargs_get_insert, !kwargs_get_insert_ne by done.
    rewrite Hyes, Hno.
    destruct (default_formatter _ _ _) as [f|]; [|done]. cbn [bind].
    by destruct (join_files files).
  - unfold zcombine, finish.
    change zcombine_flags with (map PStr zcombine_flag_names).
    rewrite !flagstr_list_norun
      by (apply (bool_decide_unpack _); by vm_compute).
    rewrite !kwargs_get_insert. rewrite Hyes, Hno.
    destruct (flagstr_list _ _ _) as [l|]; [|done]. cbn [bind].
    by destruct (join_files files).
Qed.

End WrapperMore.

(** ** Further properties of [calcsfh] *)

Lemma set_True_keeps (kw kw' : gmap string pyval) (flag : pyval)
    (m : string) :
  kwargs_set_True kw flag = Ok kw' ->
  kw !! m = Some (PBool true) -> kw' !! m = Some (PBool true).
Proof.
  destruct flag as [| | | |s|l|l]; cbn [kwargs_set_True hashable];
    try (by intros [= <-]);
    [|by destruct (forallb hashable l); [intros [= <-]|]].
  intros [= <-] Hm. destruct (decide (s = m)) as [->|Hne].
  - by rewrite lookup_insert_eq.
  - by rewrite lookup_insert_ne.
Qed.

Lemma set_True_frame (kw kw' : gmap string pyval) (flag : pyval)
    (k : string) :
  kwargs_set_True kw flag = Ok kw' ->
  flag <> PStr k -> kw' !! k = kw !! k.
Proof.
  destruct flag as [| | | |s|l|l]; cbn [kwargs_set_True hashable];
    try (by intros [= <-]);
    [|by destruct (forallb hashable l); [intros [= <-]|]].
  intros [= <-] Hne. rewrite lookup_insert_ne; [done|congruence].
Qed.

(** A selection step keeps what is already in the flag list, an entry
    that is [True], and every entry it does not name. *)
Lemma select_extends (name : string) (kw kw' : gmap string pyval)
    (fl fl' : list pyval) :
  select name (kw, fl) = Ok (kw', fl') ->
  (exists extra, fl' = fl ++ extra)
  /\ (forall m, kw !! m = Some (PBool true) -> kw' !! m = Some (PBool true))
  /\ (forall k, kwargs_get kw name <> PStr k -> kw' !! k = kw !! k).
Proof.
  unfold select. cbn [fst snd]. destruct (truthy _).
  - destruct (kwargs_set_True kw _) as [kw1|] eqn:E; [|done].
    cbn [bind]. intros [= <- <-]. split; [by eexists|]. split.
    + intros m. by apply (set_True_keeps _ _ _ _ E).
    + intros k. by apply (set_True_frame _ _ _ _ E).
  - intros [= <- <-]. split; [|done]. exists []. by rewrite app_nil_r.
Qed.

Lemma select_model_extends (kw kw' : gmap string pyval)
    (fl fl' : list pyval) :
  select_model (kw, fl) = Ok (kw', fl') ->
  (exists extra, fl' = fl ++ extra)
  /\ (forall m, kw !! m = Some (PBool true) -> kw' !! m = Some (PBool true))
  /\ (forall k, kwargs_get kw "model" <> PStr k -> kw' !! k = kw !! k).
Proof.
  unfold select_model. cbn [fst snd]. destruct (truthy _).
  - destruct (kwargs_set_True kw _) as [kw1|] eqn:E; [|done].
    cbn [bind].
    assert ((forall m, kw !! m = Some (PBool true) ->
                       kw1 !! m = Some (PBool true))
            /\ (forall k, kwargs_get kw "model" <> PStr k ->
                          kw1 !! k = kw !! k)) as Hkw.
    { split; [intros m; by apply (set_True_keeps _ _ _ _ E)|].
      intros k. by apply (set_True_frame _ _ _ _ E). }
    destruct (py_in _ _); intros [= <- <-]; (split; [|done]).
    + eexists. by rewrite <- app_assoc.
    + by eexists.
  - intros [= <- <-]. split; [|done]. exists []. by rewrite app_nil_r.
Qed.

Lemma traverse_raises {A B} (f : A -> result B) (l : list A) (x : A)
    (e : exn) :
  x ∈ l -> f x = Raise e -> exists e', traverse f l = Raise e'.
Proof.
  induction l as [|y l IH]; intros Hin Hx; [by apply elem_of_nil in Hin|].
  simpl. destruct (f y) as [b|e1] eqn:Hy; [|by eexists]. cbn [bind].
  apply elem_of_cons in Hin as [->|Hin]; [congruence|].
  destruct (IH Hin Hx) as [e' ->]. by eexists.
Qed.

Lemma selection_in_ne (names : list string) (v : pyval) (k : string) :
  selection_in names v = true -> k ∉ names -> v <> PStr k.
Proof.
  intros Hv Hk ->. simpl in Hv. by apply bool_decide_eq_true in Hv.
Qed.

Section CalcsfhMore.

Variable str_format : string -> pyval -> result string.

(** The flag of the [mode] keyword is the first flag string of the
    command and it is bare: the mode is stored as [True] under its own
    name before the list is rendered, so a value the caller gave under
    that name is not used. *)
Theorem calcsfh_mode_flag_comes_first (formatter : option formatter_t)
    (kwargs kwargs' : gmap string pyval) (m : string)
    (flagstrs : list string) :
  kwargs_get kwargs "mode" = PStr m ->
  m <> "" ->
  is_FlagFormatter str_format formatter ->
  calcsfh_flagstr_list str_format formatter kwargs = Ok (kwargs', flagstrs) ->
  exists rest, flagstrs = ("-" +:+ m) :: rest.
Proof.
  intros Hmode Hm Hfm. unfold calcsfh_flagstr_list, calcsfh_flag_list.
  assert (select "mode" (kwargs, [])
          = Ok (<[m := PBool true]> kwargs, [PStr m])) as ->.
  { unfold select. cbn [fst snd]. rewrite Hmode. by destruct m. }
  cbn [bind fst snd app].
  destruct (select_model _) as [[kw2 fl2]|] eqn:E2; [|done]. cbn [bind].
  apply select_model_extends in E2 as ([x2 ->] & K2 & _).
  destruct (select "transformation" _) as [[kw3 fl3]|] eqn:E3; [|done].
  apply select_extends in E3 as ([x3 ->] & K3 & _).
  cbn [bind fst snd app].
  assert (kwargs_get kw3 m = PBool true) as Hkw3.
  { unfold kwargs_get. rewrite (K3 m); [done|]. apply K2.
    by rewrite lookup_insert_eq. }
  unfold flagstr_list. cbn [traverse kwargs_get_flag]. rewrite Hkw3.
  assert (get_formatter str_format formatter kw3 (PStr m) (PBool true)
          = Ok (Some ("-" +:+ m))
          \/ get_formatter str_format formatter kw3 (PStr m) (PBool true)
             = Raise TypeError) as [-> | ->]; [|cbn [bind]|done].
  { unfold get_formatter. destruct (kw3 !! "formatter"); [by right|].
    left. by destruct Hfm as [->|[fd ->]]. }
  destruct (traverse _ _) as [l|]; [|done]. cbn [bind].
  intros [= <- <-]. rewrite append_cons, append_nil_l.
  cbn [omap list_omap keep_flagstr]. by eexists.
Qed.

(** [appDmod], documented as a string, cannot be used with the default
    formatter or any [FlagFormatter] made by the constructor: the flag has
    no format string, so a call that sets it to a value other than [True]
    or a false one raises, whatever else it is given. *)
Theorem calcsfh_appDmod_always_raises
    (paramfile photfile fakefile sfhfile : string)
    (formatter : option formatter_t) (kwargs : gmap string pyval) :
  documented_selections kwargs = true ->
  is_constructed_FlagFormatter str_format formatter ->
  needs_format (kwargs_get kwargs "appDmod") = true ->
  exists e,
    calcsfh str_format paramfile photfile fakefile sfhfile formatter kwargs
    = Raise e.
Proof.
  unfold documented_selections.
  intros [[Hmode Hmodel]%andb_true_iff Htrans]%andb_true_iff Hfm Hneeds.
  unfold calcsfh, calcsfh_flagstr_list, calcsfh_flag_list.
  destruct (select "mode" _) as [[kw1 fl1]|] eqn:E1; [|by eexists].
  apply select_extends in E1 as ([x1 ->] & _ & F1).
  cbn [bind fst snd app].
  assert (forall k, k ∉ mode_names -> kw1 !! k = kwargs !! k) as G1.
  { intros k Hk. apply F1. by eapply selection_in_ne. }
  destruct (select_model _) as [[kw2 fl2]|] eqn:E2; [|by eexists].
  apply select_model_extends in E2 as ([x2 ->] & _ & F2).
  cbn [bind].
  assert (forall k, k ∉ model_names -> kw2 !! k = kw1 !! k) as G2.
  { intros k Hk. apply F2. eapply selection_in_ne; [|done].
    unfold kwargs_get. rewrite G1; [done|].
    apply (bool_decide_unpack _). by vm_compute. }
  destruct (select "transformation" _) as [[kw3 fl3]|] eqn:E3; [|by eexists].
  apply select_extends in E3 as ([x3 ->] & _ & F3).
  cbn [bind fst snd].
  assert (forall k, k ∉ model_names -> kw3 !! k = kw2 !! k) as G3.
  { intros k Hk. apply F3. eapply selection_in_ne; [|done].
    unfold kwargs_get. rewrite G2, G1; [done|..];
      apply (bool_decide_unpack _); by vm_compute. }
  assert (kwargs_get kw3 "appDmod" = kwargs_get kwargs "appDmod") as Hkw3.
  { unfold kwargs_get. rewrite G3, G2, G1; [done|..];
      apply (bool_decide_unpack _); by vm_compute. }
  assert (exists e, flagstr_list (get_formatter str_format formatter kw3) kw3
                      (((x1 ++ calcsfh_mode_flags ++ calcsfh_model_flags)
                        ++ x2) ++ x3) = Raise e) as [e ->]; [|by eexists].
  unfold flagstr_list.
  destruct (traverse_raises
              (fun flag => get_formatter str_format formatter kw3 flag
                             (kwargs_get_flag kw3 flag))
              (((x1 ++ calcsfh_mode_flags ++ calcsfh_model_flags) ++ x2)
               ++ x3)
              (PStr "appDmod")
              (match kw3 !! "formatter" with
               | Some _ => TypeError
               | None => KeyError
               end))
    as [e ->]; [| |by eexists].
  - rewrite !elem_of_app. left. left. right. right.
    apply list_elem_of_In. vm_compute. tauto.
  - cbn [kwargs_get_flag]. rewrite Hkw3. unfold get_formatter.
    destruct (kw3 !! "formatter"); [done|].
    destruct Hfm as [->|[ov ->]].
    + change (FlagFormatter_instance str_format (FlagFormatter_init ∅)
                (PStr "appDmod") (kwargs_get kwargs "appDmod")
              = Raise KeyError).
      rewrite (unregistered_flag str_format _ "appDmod") by done.
      by rewrite Hneeds.
    + change (FlagFormatter_instance str_format (FlagFormatter_init ov)
                (PStr "appDmod") (kwargs_get kwargs "appDmod")
              = Raise KeyError).
      rewrite (unregistered_flag str_format _ "appDmod") by done.
      by rewrite Hneeds.
Qed.

End CalcsfhMore.

(** ** The further properties at concrete calls *)

Lemma call_scalar_formats_once_witness :
  FlagFormatter_call py_str_format (FlagFormatter_init ∅) (PStr "nmc")
                     (PInt 5) ";"
  = Ok (Some ("-" +:+ "nmc" +:+ "=" +:+ "5")).
Proof.
  apply (call_scalar_formats_once py_str_format (FlagFormatter_init ∅)
           "nmc" (PStr "{:d}") (PInt 5) ";").
  - vm_compute; reflexivity.
  - reflexivity.
  - reflexivity.
Defined.

Lemma call_one_pattern_for_every_item_witness :
  FlagFormatter_call py_str_format (FlagFormatter_init ∅) (PStr "dAv")
                     (PTuple [PFloat float_1_5; PInt 3]) ","
  = Ok (Some ("-" +:+ "dAv" +:+ "=" +:+ join "," ["1.50"; "3.00"])).
Proof.
  apply (call_one_pattern_for_every_item py_str_format
           (FlagFormatter_init ∅) "dAv" ":.2f}"
           (PTuple [PFloat float_1_5; PInt 3]) (PFloat float_1_5) [PInt 3]
           ["1.50"; "3.00"] ",").
  - vm_compute; reflexivity.
  - reflexivity.
  - reflexivity.
  - repeat constructor.
Defined.

Lemma call_literal_prefix_hides_values_witness :
  FlagFormatter_call py_str_format
    (FlagFormatter_init {[ "dAv" := PStr "v{:d}" ]}) (PStr "dAv")
    (PList [PInt 7]) ","
  = Ok (Some ("-" +:+ "dAv" +:+ "=" +:+ join "," (chars_of "v"))).
Proof.
  apply (call_literal_prefix_hides_values py_str_format
           (FlagFormatter_init {[ "dAv" := PStr "v{:d}" ]}) "dAv" "v" "{:d}"
           (PList [PInt 7]) [PInt 7] ",").
  - vm_compute; reflexivity.
  - reflexivity.
  - discriminate.
  - reflexivity.
  - intros c v Hc. apply list_elem_of_singleton in Hc. subst c. reflexivity.
Defined.

Lemma call_failed_pair_raises_AttributeError_witness :
  FlagFormatter_call py_str_format
    (FlagFormatter_init {[ "dAv" := PTuple [PStr "{:d}"; PStr "{:d}"] ]})
    (PStr "dAv") (PTuple [PFloat float_1_5; PInt 2]) ","
  = Raise (if caught_by_first_except ValueError then AttributeError
           else ValueError).
Proof.
  apply (call_failed_pair_raises_AttributeError py_str_format
           (FlagFormatter_init {[ "dAv" := PTuple [PStr "{:d}"; PStr "{:d}"] ]})
           "dAv" (PTuple [PStr "{:d}"; PStr "{:d}"])
           (PTuple [PFloat float_1_5; PInt 2])
           [PStr "{:d}"; PStr "{:d}"] [PFloat float_1_5; PInt 2]
           ValueError ",").
  - vm_compute; reflexivity.
  - reflexivity.
  - reflexivity.
  - discriminate.
  - reflexivity.
Defined.

Lemma zcombine_valued_flag_raises_KeyError_witness :
  zcombine py_str_format (PStr "a.sfh") "a.zcb"
           {[ "param" := PStr "calcsfh.par"; "norun" := PBool true ]}
  = Raise KeyError.
Proof.
  apply (zcombine_valued_flag_raises_KeyError py_str_format (PStr "a.sfh")
           "a.zcb" {[ "param" := PStr "calcsfh.par"; "norun" := PBool true ]}
           "param").
  - by left.
  - reflexivity.
Defined.

Lemma zcombine_command_witness :
  zcombine py_str_format (PList [PStr "a.sfh"; PStr "b.sfh"]) "ab.zcb"
           {[ "bestonly" := PBool true; "sigma" := PBool false;
              "medbest" := PBool true; "norun" := PBool true ]}
  = Ok (Returned "zcombine -bestonly -medbest a.sfh b.sfh > ab.zcb").
Proof.
  rewrite (zcombine_command py_str_format (PList [PStr "a.sfh"; PStr "b.sfh"])
             "ab.zcb"
             {[ "bestonly" := PBool true; "sigma" := PBool false;
                "medbest" := PBool true; "norun" := PBool true ]}).
  - vm_compute; reflexivity.
  - intros n Hn. unfold zcombine_flag_names in Hn.
    repeat (apply elem_of_cons in Hn as [->|Hn]; [reflexivity|]).
    by apply elem_of_nil in Hn.
Defined.

Lemma dry_run_shows_the_executed_command_witness :
  dry_run_matches
    (hybridMC py_str_format "a.dat" "b.sfh" None
       (<["norun" := PBool true]> {[ "nmc" := PInt 5 ]}))
    (hybridMC py_str_format "a.dat" "b.sfh" None
       (<["norun" := PNone]> {[ "nmc" := PInt 5 ]}))
  /\ hybridMC py_str_format "a.dat" "b.sfh" None
       (<["norun" := PNone]> {[ "nmc" := PInt 5 ]})
     = Ok (Executed "hybridMC b.sfh a.dat -nmc=5").
Proof.
  split; [|vm_compute; reflexivity].
  apply (dry_run_shows_the_executed_command py_str_format "a.dat" "b.sfh"
           (PStr "a.sfh") "a.zcb" None {[ "nmc" := PInt 5 ]}
           (PBool true) PNone); reflexivity.
Defined.

Lemma calcsfh_mode_flag_comes_first_witness :
  exists rest, ["-ssp"; "-dAv=1.50"] = ("-" +:+ "ssp") :: rest.
Proof.
  apply (calcsfh_mode_flag_comes_first py_str_format None
           {[ "mode" := PStr "ssp"; "ssp" := PInt 3;
              "dAv" := PFloat float_1_5 ]}
           (<["ssp" := PBool true]>
              {[ "mode" := PStr "ssp"; "ssp" := PInt 3;
                 "dAv" := PFloat float_1_5 ]})
           "ssp" ["-ssp"; "-dAv=1.50"]).
  - reflexivity.
  - discriminate.
  - by left.
  - vm_compute; reflexivity.
Defined.

Lemma calcsfh_appDmod_always_raises_witness :
  exists e,
    calcsfh py_str_format "par" "phot" "fake" "sfh" None
            {[ "appDmod" := PStr "24.47"; "norun" := PBool true ]}
    = Raise e.
Proof.
  apply (calcsfh_appDmod_always_raises py_str_format "par" "phot" "fake"
           "sfh" None {[ "appDmod" := PStr "24.47"; "norun" := PBool true ]}).
  - vm_compute; reflexivity.
  - by left.
  - reflexivity.
Defined.

